(** * NbTooltipDirective: a shallow embedding of
      src/framework/theme/components/tooltip/tooltip.directive.ts

    The directive is a coordinator: it owns a handful of fields and issues
    commands to collaborators (the position builder, the trigger strategy
    builder, the overlay service and the content renderer of `../cdk`).
    Every method of the class becomes a function on the directive's state.
    The state carries, besides the fields of the class, the subscriptions
    the directive has made and a log of what it did, in program order. *)

From stdpp Require Import base strings gmap list.

(** ** JavaScript references *)

(** A field that holds an object may also hold `undefined` (never assigned)
    or `null` (assigned by `hide`). *)
Inductive Ref (A : Type) : Type :=
  | undefined
  | null
  | obj (a : A).
Arguments undefined {A}.
Arguments null {A}.
Arguments obj {A} a.

(** JavaScript truthiness of a reference: the test of `if (this.ref)`. *)
Definition truthy {A} (r : Ref A) : bool :=
  match r with
  | obj _ => true
  | _ => false
  end.

(** ** Enumerations of `../cdk` *)

(** Modelled from the spec: `NbPosition` is declared in `../cdk`; the spec
    lists Placement as top, right, bottom, left, start, end. *)
Module NbPosition.
Inductive t := TOP | RIGHT | BOTTOM | LEFT | START | END.
End NbPosition.

(** Modelled from the spec: `NbAdjustment` is declared in `../cdk`; the spec
    lists AdjustmentPolicy as none, clockwise, counterclockwise. *)
Module NbAdjustment.
Inductive t := NONE | CLOCKWISE | COUNTERCLOCKWISE.
End NbAdjustment.

(** Modelled from the spec: `NbTrigger` is declared in `../cdk`; the spec
    lists TriggerMode as click, hover, hint, focus, noop. *)
Module NbTrigger.
Inductive t := CLICK | HOVER | HINT | FOCUS | NOOP.
End NbTrigger.

(** ** Collaborator objects *)

(** Modelled from the spec: the host element. Angular's `ElementRef` wraps
    a DOM element, which is opaque here and stands as a number. *)
Record ElementRef := { nativeElement : nat }.

(** Modelled from the spec: the position strategy produced by the chain
    `connectedTo(host).position(p).adjustment(a).offset(n)` of
    `NbPositionBuilderService`. [ps_id] is the identity of the object, which
    also names its `positionChange` stream. *)
Record NbAdjustableConnectedPositionStrategy := {
  ps_id : nat;
  ps_host : ElementRef;
  ps_position : NbPosition.t;
  ps_adjustment : NbAdjustment.t;
  ps_offset : Z
}.

(** The builder chain of `NbPositionBuilderService`, one function per call
    of `connectedTo(host).position(p).adjustment(a).offset(n)`. *)
Module NbPositionBuilderService.
(** Modelled from the spec: `connectedTo(host)` makes the strategy object.
    The values it starts with are placeholders: the chain of the directive
    sets all three. *)
Definition connectedTo (id : nat) (host : ElementRef)
  : NbAdjustableConnectedPositionStrategy :=
  {| ps_id := id; ps_host := host; ps_position := NbPosition.TOP;
     ps_adjustment := NbAdjustment.NONE; ps_offset := 0%Z |}.
(** Modelled from the spec: `.position(Placement)` sets the placement. *)
Definition position (p : NbPosition.t) (b : NbAdjustableConnectedPositionStrategy) :=
  {| ps_id := ps_id b; ps_host := ps_host b; ps_position := p;
     ps_adjustment := ps_adjustment b; ps_offset := ps_offset b |}.
(** Modelled from the spec: `.adjustment(AdjustmentPolicy)` sets the policy. *)
Definition adjustment (a : NbAdjustment.t) (b : NbAdjustableConnectedPositionStrategy) :=
  {| ps_id := ps_id b; ps_host := ps_host b; ps_position := ps_position b;
     ps_adjustment := a; ps_offset := ps_offset b |}.
(** Modelled from the spec: `.offset(number)` sets the offset. *)
Definition offset (n : Z) (b : NbAdjustableConnectedPositionStrategy) :=
  {| ps_id := ps_id b; ps_host := ps_host b; ps_position := ps_position b;
     ps_adjustment := ps_adjustment b; ps_offset := n |}.
End NbPositionBuilderService.

(** Modelled from the spec: the trigger strategy produced by the chain
    `trigger(t).host(el).container(supplier).build()` of
    `NbTriggerStrategyBuilderService`. The supplier `() => this.container`
    reads the directive's field when it is called: it is the projection
    [container] of the state below, so the record does not store it.
    [ts_id] names the `show$` and `hide$` streams of the object. *)
Record NbTriggerStrategy := {
  ts_id : nat;
  ts_trigger : NbTrigger.t;
  ts_host : nat
}.

Module NbTriggerStrategyBuilderService.
(** Modelled from the spec: the whole chain
    `trigger(t).host(el).container(supplier).build()`. *)
Definition build (id : nat) (t : NbTrigger.t) (host : nat) : NbTriggerStrategy :=
  {| ts_id := id; ts_trigger := t; ts_host := host |}.
End NbTriggerStrategyBuilderService.

(** Modelled from the spec: the reposition-on-scroll policy returned by
    `this.overlay.scrollStrategies.reposition()`. *)
Inductive NbScrollStrategy := reposition.

(** The argument of `this.overlay.create`. *)
Record NbOverlayConfig := {
  cfg_positionStrategy : Ref NbAdjustableConnectedPositionStrategy;
  cfg_scrollStrategy : NbScrollStrategy
}.

(** Modelled from the spec: the overlay handle of `NbOverlayService`, with
    `detach()`, `dispose()` and `hasAttached()`. A handle has content
    attached from the moment content is rendered into it until it is
    detached; disposing releases everything. *)
Record NbOverlayRef := {
  ov_id : nat;
  ov_config : NbOverlayConfig;
  ov_attached : bool;
  ov_disposed : bool
}.

Module Overlay.
(** Modelled from the spec: `hasAttached()`. *)
Definition hasAttached (ov : NbOverlayRef) : bool := ov_attached ov.
(** Modelled from the spec: what rendering content into the overlay does to
    the handle. *)
Definition attach (ov : NbOverlayRef) : NbOverlayRef :=
  {| ov_id := ov_id ov; ov_config := ov_config ov;
     ov_attached := true; ov_disposed := ov_disposed ov |}.
(** Modelled from the spec: `detach()` takes the content off and keeps the
    handle. *)
Definition detach (ov : NbOverlayRef) : NbOverlayRef :=
  {| ov_id := ov_id ov; ov_config := ov_config ov;
     ov_attached := false; ov_disposed := ov_disposed ov |}.
(** Modelled from the spec: `dispose()` releases the handle and what is
    attached to it. *)
Definition dispose (ov : NbOverlayRef) : NbOverlayRef :=
  {| ov_id := ov_id ov; ov_config := ov_config ov;
     ov_attached := false; ov_disposed := true |}.
End Overlay.

(** Modelled from the spec: `NbOverlayService.create(config)` returns a new
    handle, with nothing attached. *)
Definition overlay_create (id : nat) (cfg : NbOverlayConfig) : NbOverlayRef :=
  {| ov_id := id; ov_config := cfg; ov_attached := false; ov_disposed := false |}.

(** The properties `openTooltip` hands to the renderer. `context` is passed
    by reference: the rendered component shares the directive's one context
    object, so the record below has no copy of it. `cfr` is an opaque
    service and is left out. *)
Record TooltipProps := {
  prop_position : NbPosition.t;
  prop_content : Ref string
}.

(** The rendered content, a `ComponentRef` on an `NbTooltipComponent`. *)
Record ComponentRef := {
  c_id : nat;
  c_position : NbPosition.t;
  c_content : Ref string
}.

(** Modelled from the spec: `createContainer(overlayHandle, ComponentType,
    props)` of `../cdk` renders a new component into the overlay and returns
    it; the overlay then has content attached. This is the call that
    returns. The renderer may raise instead (on a handle that already has
    content, on a disposed handle), and then `show` assigns nothing to
    `this.container`; the spec does not describe that path and the model
    does not follow it. What is stated below about a `show()` on a shown or
    on a destroyed directive is therefore stated on the calls `show` makes
    and on the handle it keeps, not on what the renderer returns. *)
Definition createContainer (id : nat) (ov : NbOverlayRef) (props : TooltipProps)
  : NbOverlayRef * ComponentRef :=
  (Overlay.attach ov,
   {| c_id := id; c_position := prop_position props; c_content := prop_content props |}).

(** Modelled from the spec: `patch(contentRef, { position })` of `../cdk`
    overwrites the position field of the rendered content and keeps the
    component itself. Where there is no rendered content there is no field
    to overwrite; the spec does not say what `patch` does then (it may
    raise), and nothing below relies on the result of `patch` without
    rendered content. *)
Definition patch (c : Ref ComponentRef) (p : NbPosition.t) : Ref ComponentRef :=
  match c with
  | obj c => obj {| c_id := c_id c; c_position := p; c_content := c_content c |}
  | r => r
  end.

(** ** Streams and subscriptions *)

(** The three streams the directive subscribes to, each named by the
    strategy object it belongs to. *)
Inductive Stream :=
  | positionChange (ps : nat)
  | show_stream (ts : nat)
  | hide_stream (ts : nat).

#[global] Instance Stream_eq_dec : EqDecision Stream := ltac:(solve_decision).

(** `stream.pipe(takeWhile(() => this.alive)).subscribe(handler)`: the
    handler is fixed by the stream; `takeWhile` completes the subscription
    the first time a value arrives while the predicate is false. *)
Record Subscription := {
  sub_stream : Stream;
  sub_completed : bool
}.

(** A value emitted on a stream. *)
Inductive Notification :=
  | positionChange_next (ps : nat) (p : NbPosition.t)
  | show_next (ts : nat)
  | hide_next (ts : nat).

Definition stream_of (n : Notification) : Stream :=
  match n with
  | positionChange_next ps _ => positionChange ps
  | show_next ts => show_stream ts
  | hide_next ts => hide_stream ts
  end.

(** ** The log *)

(** What the directive does, in program order: entries into its public
    methods `show` and `hide`, and every call it makes on a collaborator. *)
Inductive Event :=
  | enter_show
  | enter_hide
  | ev_createTriggerStrategy (ts : NbTriggerStrategy)
  | ev_createPositionStrategy (ps : NbAdjustableConnectedPositionStrategy)
  | ev_subscribe (on : Stream)
  | ev_overlay_create (cfg : NbOverlayConfig)
  | ev_createContainer (ov : NbOverlayRef) (props : TooltipProps)
  | ev_patch (c : Ref ComponentRef) (p : NbPosition.t)
  | ev_detach (ov : nat)
  | ev_dispose (ov : nat).

(** ** The directive *)

Record NbTooltipDirective := {
  (* inputs *)
  context : gmap string string;
  content : Ref string;
  position : NbPosition.t;
  adjustment : NbAdjustment.t;
  trigger : NbTrigger.t;
  (* injected *)
  hostRef : ElementRef;
  (* protected fields *)
  ref : Ref NbOverlayRef;
  container : Ref ComponentRef;
  positionStrategy : Ref NbAdjustableConnectedPositionStrategy;
  alive : bool;
  (* environment: subscriptions made, log of actions, next object identity *)
  subscriptions : list Subscription;
  log : list Event;
  next_id : nat
}.

(** Field assignments. *)
Definition with_context (v : gmap string string) (s : NbTooltipDirective) : NbTooltipDirective :=
  {| context := v; content := content s; position := position s;
     adjustment := adjustment s; trigger := trigger s; hostRef := hostRef s;
     ref := ref s; container := container s; positionStrategy := positionStrategy s;
     alive := alive s; subscriptions := subscriptions s;
     log := log s; next_id := next_id s |}.

Definition with_content (v : Ref string) (s : NbTooltipDirective) : NbTooltipDirective :=
  {| context := context s; content := v; position := position s;
     adjustment := adjustment s; trigger := trigger s; hostRef := hostRef s;
     ref := ref s; container := container s; positionStrategy := positionStrategy s;
     alive := alive s; subscriptions := subscriptions s;
     log := log s; next_id := next_id s |}.

Definition with_position (v : NbPosition.t) (s : NbTooltipDirective) : NbTooltipDirective :=
  {| context := context s; content := content s; position := v;
     adjustment := adjustment s; trigger := trigger s; hostRef := hostRef s;
     ref := ref s; container := container s; positionStrategy := positionStrategy s;
     alive := alive s; subscriptions := subscriptions s;
     log := log s; next_id := next_id s |}.

Definition with_adjustment (v : NbAdjustment.t) (s : NbTooltipDirective) : NbTooltipDirective :=
  {| context := context s; content := content s; position := position s;
     adjustment := v; trigger := trigger s; hostRef := hostRef s;
     ref := ref s; container := container s; positionStrategy := positionStrategy s;
     alive := alive s; subscriptions := subscriptions s;
     log := log s; next_id := next_id s |}.

Definition with_trigger (v : NbTrigger.t) (s : NbTooltipDirective) : NbTooltipDirective :=
  {| context := context s; content := content s; position := position s;
     adjustment := adjustment s; trigger := v; hostRef := hostRef s;
     ref := ref s; container := container s; positionStrategy := positionStrategy s;
     alive := alive s; subscriptions := subscriptions s;
     log := log s; next_id := next_id s |}.

Definition with_ref (v : Ref NbOverlayRef) (s : NbTooltipDirective) : NbTooltipDirective :=
  {| context := context s; content := content s; position := position s;
     adjustment := adjustment s; trigger := trigger s; hostRef := hostRef s;
     ref := v; container := container s; positionStrategy := positionStrategy s;
     alive := alive s; subscriptions := subscriptions s;
     log := log s; next_id := next_id s |}.

Definition with_container (v : Ref ComponentRef) (s : NbTooltipDirective) : NbTooltipDirective :=
  {| context := context s; content := content s; position := position s;
     adjustment := adjustment s; trigger := trigger s; hostRef := hostRef s;
     ref := ref s; container := v; positionStrategy := positionStrategy s;
     alive := alive s; subscriptions := subscriptions s;
     log := log s; next_id := next_id s |}.

Definition with_positionStrategy (v : Ref NbAdjustableConnectedPositionStrategy) (s : NbTooltipDirective) : NbTooltipDirective :=
  {| context := context s; content := content s; position := position s;
     adjustment := adjustment s; trigger := trigger s; hostRef := hostRef s;
     ref := ref s; container := container s; positionStrategy := v;
     alive := alive s; subscriptions := subscriptions s;
     log := log s; next_id := next_id s |}.

Definition with_alive (v : bool) (s : NbTooltipDirective) : NbTooltipDirective :=
  {| context := context s; content := content s; position := position s;
     adjustment := adjustment s; trigger := trigger s; hostRef := hostRef s;
     ref := ref s; container := container s; positionStrategy := positionStrategy s;
     alive := v; subscriptions := subscriptions s;
     log := log s; next_id := next_id s |}.

Definition with_subscriptions (v : list Subscription) (s : NbTooltipDirective) : NbTooltipDirective :=
  {| context := context s; content := content s; position := position s;
     adjustment := adjustment s; trigger := trigger s; hostRef := hostRef s;
     ref := ref s; container := container s; positionStrategy := positionStrategy s;
     alive := alive s; subscriptions := v;
     log := log s; next_id := next_id s |}.

Definition with_log (v : list Event) (s : NbTooltipDirective) : NbTooltipDirective :=
  {| context := context s; content := content s; position := position s;
     adjustment := adjustment s; trigger := trigger s; hostRef := hostRef s;
     ref := ref s; container := container s; positionStrategy := positionStrategy s;
     alive := alive s; subscriptions := subscriptions s;
     log := v; next_id := next_id s |}.

Definition with_next_id (v : nat) (s : NbTooltipDirective) : NbTooltipDirective :=
  {| context := context s; content := content s; position := position s;
     adjustment := adjustment s; trigger := trigger s; hostRef := hostRef s;
     ref := ref s; container := container s; positionStrategy := positionStrategy s;
     alive := alive s; subscriptions := subscriptions s;
     log := log s; next_id := v |}.


(** ** Methods *)

(** Append one event to the log. *)
Definition record (e : Event) (s : NbTooltipDirective) : NbTooltipDirective :=
  with_log (log s ++ [e]) s.

(** `new NbTooltipDirective(...)`: the field initialisers of the class. *)
Definition new (host : ElementRef) : NbTooltipDirective :=
  {| context := ∅; content := undefined; position := NbPosition.TOP;
     adjustment := NbAdjustment.CLOCKWISE; trigger := NbTrigger.HINT;
     hostRef := host;
     ref := undefined; container := undefined; positionStrategy := undefined;
     alive := true;
     subscriptions := []; log := []; next_id := 0 |}.

(** `set icon(icon)`: `Object.assign(this.context, { icon })` writes the key
    into the one context object and returns that object. *)
Definition set_icon (icon : string) (s : NbTooltipDirective) : NbTooltipDirective :=
  with_context (<["icon" := icon]> (context s)) s.

(** `set status(status)` *)
Definition set_status (status : string) (s : NbTooltipDirective) : NbTooltipDirective :=
  with_context (<["status" := status]> (context s)) s.

(** `createOverlay()` *)
Definition createOverlay (s : NbTooltipDirective) : NbTooltipDirective :=
  let cfg := {| cfg_positionStrategy := positionStrategy s;
                cfg_scrollStrategy := reposition |} in
  with_ref (obj (overlay_create (next_id s) cfg))
    (with_next_id (S (next_id s)) (record (ev_overlay_create cfg) s)).

(** `openTooltip()`. The renderer needs an overlay; `show` is the only
    caller and makes sure there is one. *)
Definition openTooltip (s : NbTooltipDirective) : NbTooltipDirective :=
  match ref s with
  | obj ov =>
      let props := {| prop_position := position s; prop_content := content s |} in
      let rendered := createContainer (next_id s) ov props in
      with_container (obj rendered.2)
        (with_ref (obj rendered.1)
           (with_next_id (S (next_id s)) (record (ev_createContainer ov props) s)))
  | _ => s
  end.

(** `show()` *)
Definition show (s : NbTooltipDirective) : NbTooltipDirective :=
  let s := record enter_show s in
  let s := if negb (truthy (ref s)) then createOverlay s else s in
  openTooltip s.

(** `hide()` *)
Definition hide (s : NbTooltipDirective) : NbTooltipDirective :=
  let s := record enter_hide s in
  let s := match ref s with
           | obj ov => with_ref (obj (Overlay.detach ov)) (record (ev_detach (ov_id ov)) s)
           | _ => s
           end in
  with_container null s.

(** The test of `toggle`: `this.ref && this.ref.hasAttached()`. *)
Definition shown (s : NbTooltipDirective) : bool :=
  match ref s with
  | obj ov => Overlay.hasAttached ov
  | _ => false
  end.

(** `toggle()` *)
Definition toggle (s : NbTooltipDirective) : NbTooltipDirective :=
  if shown s then hide s else show s.

(** `ngOnDestroy()` *)
Definition ngOnDestroy (s : NbTooltipDirective) : NbTooltipDirective :=
  let s := with_alive false s in
  let s := hide s in
  match ref s with
  | obj ov => with_ref (obj (Overlay.dispose ov)) (record (ev_dispose (ov_id ov)) s)
  | _ => s
  end.

(** `createPositionStrategy()` *)
Definition createPositionStrategy (s : NbTooltipDirective)
  : NbAdjustableConnectedPositionStrategy * NbTooltipDirective :=
  let ps :=
    NbPositionBuilderService.offset 8%Z
      (NbPositionBuilderService.adjustment (adjustment s)
         (NbPositionBuilderService.position (position s)
            (NbPositionBuilderService.connectedTo (next_id s) (hostRef s)))) in
  (ps, with_next_id (S (next_id s)) (record (ev_createPositionStrategy ps) s)).

(** `createTriggerStrategy()` *)
Definition createTriggerStrategy (s : NbTooltipDirective)
  : NbTriggerStrategy * NbTooltipDirective :=
  let ts :=
    NbTriggerStrategyBuilderService.build (next_id s) (trigger s)
      (nativeElement (hostRef s)) in
  (ts, with_next_id (S (next_id s)) (record (ev_createTriggerStrategy ts) s)).

(** `stream.pipe(takeWhile(() => this.alive)).subscribe(...)` *)
Definition subscribe (on : Stream) (s : NbTooltipDirective) : NbTooltipDirective :=
  with_subscriptions
    (subscriptions s ++ [{| sub_stream := on; sub_completed := false |}])
    (record (ev_subscribe on) s).

(** `subscribeOnPositionChange()` *)
Definition subscribeOnPositionChange (s : NbTooltipDirective) : NbTooltipDirective :=
  let built := createPositionStrategy s in
  let s := with_positionStrategy (obj built.1) built.2 in
  subscribe (positionChange (ps_id built.1)) s.

(** `subscribeOnTriggers()` *)
Definition subscribeOnTriggers (s : NbTooltipDirective) : NbTooltipDirective :=
  let built := createTriggerStrategy s in
  let s := subscribe (show_stream (ts_id built.1)) built.2 in
  subscribe (hide_stream (ts_id built.1)) s.

(** `ngAfterViewInit()` *)
Definition ngAfterViewInit (s : NbTooltipDirective) : NbTooltipDirective :=
  let s := subscribeOnTriggers s in
  subscribeOnPositionChange s.

(** ** Delivery of notifications *)

(** The callback given to `subscribe` on each stream. `patch` changes the
    rendered component in place, which the field keeps pointing at. The
    model follows a callback that returns; a callback that raises (which
    closes its subscription) is outside it. *)
Definition handler (n : Notification) (s : NbTooltipDirective) : NbTooltipDirective :=
  match n with
  | positionChange_next _ p =>
      with_container (patch (container s) p) (record (ev_patch (container s) p) s)
  | show_next _ => show s
  | hide_next _ => hide s
  end.

Definition complete (sub : Subscription) : Subscription :=
  {| sub_stream := sub_stream sub; sub_completed := true |}.

(** One value reaching one subscription, through `takeWhile(() => this.alive)`. *)
Definition deliver (n : Notification) (sub : Subscription) (s : NbTooltipDirective)
  : Subscription * NbTooltipDirective :=
  if sub_completed sub then (sub, s)
  else if decide (sub_stream sub = stream_of n) then
    if alive s then (sub, handler n s) else (complete sub, s)
  else (sub, s).

(** One value reaching every subscription, in subscription order. *)
Fixpoint deliver_all (n : Notification) (subs : list Subscription) (s : NbTooltipDirective)
  : list Subscription * NbTooltipDirective :=
  match subs with
  | [] => ([], s)
  | sub :: rest =>
      let d := deliver n sub s in
      let ds := deliver_all n rest d.2 in
      (d.1 :: ds.1, ds.2)
  end.

(** The environment emits a value on a stream. *)
Definition next (n : Notification) (s : NbTooltipDirective) : NbTooltipDirective :=
  let ds := deliver_all n (subscriptions s) s in
  with_subscriptions ds.1 ds.2.

(** ** Runs *)

(** Everything that can happen to a directive: the framework assigns its
    inputs and calls its lifecycle hooks, anyone calls its public methods,
    streams emit. *)
Inductive Op :=
  | SetContent (c : string)
  | SetPosition (p : NbPosition.t)
  | SetAdjustment (a : NbAdjustment.t)
  | SetTrigger (t : NbTrigger.t)
  | SetIcon (icon : string)
  | SetStatus (status : string)
  | NgAfterViewInit
  | NgOnDestroy
  | Show
  | Hide
  | Toggle
  | Next (n : Notification).

Definition step (o : Op) (s : NbTooltipDirective) : NbTooltipDirective :=
  match o with
  | SetContent c => with_content (obj c) s
  | SetPosition p => with_position p s
  | SetAdjustment a => with_adjustment a s
  | SetTrigger t => with_trigger t s
  | SetIcon icon => set_icon icon s
  | SetStatus status => set_status status s
  | NgAfterViewInit => ngAfterViewInit s
  | NgOnDestroy => ngOnDestroy s
  | Show => show s
  | Hide => hide s
  | Toggle => toggle s
  | Next n => next n s
  end.

Definition run (ops : list Op) (s : NbTooltipDirective) : NbTooltipDirective :=
  foldl (fun s o => step o s) s ops.

(** ** Reading the log *)

Definition is_overlay_create (e : Event) : bool :=
  match e with ev_overlay_create _ => true | _ => false end.

Definition is_createContainer (e : Event) : bool :=
  match e with ev_createContainer _ _ => true | _ => false end.

Definition is_dispose (e : Event) : bool :=
  match e with ev_dispose _ => true | _ => false end.

(** How many overlay handles the overlay service was asked for. *)
Definition overlays_created (s : NbTooltipDirective) : nat :=
  length (List.filter is_overlay_create (log s)).

(** A host element for the concrete runs below. *)
Definition host0 : ElementRef := {| nativeElement := 7 |}.

(** ** Predicates of the statements *)

(** The overlay service has been asked for a handle exactly when the field
    holds one. *)
Definition one_handle (s : NbTooltipDirective) : Prop :=
  overlays_created s = if truthy (ref s) then 1%nat else 0%nat.

(** Position of the first event of a kind in a log. *)
Fixpoint first_index (P : Event → bool) (l : list Event) : option nat :=
  match l with
  | [] => None
  | e :: l => if P e then Some 0 else S <$> first_index P l
  end.

(** The first event of kind [P] comes before the first event of kind [Q]. *)
Definition before (P Q : Event → bool) (l : list Event) : Prop :=
  ∃ i j, first_index P l = Some i ∧ first_index Q l = Some j ∧ i < j.

Definition is_createPositionStrategy (e : Event) : bool :=
  match e with ev_createPositionStrategy _ => true | _ => false end.

Definition is_createTriggerStrategy (e : Event) : bool :=
  match e with ev_createTriggerStrategy _ => true | _ => false end.

(** The handle the directive holds has been disposed. *)
Definition disposed (s : NbTooltipDirective) : bool :=
  match ref s with
  | obj ov => ov_disposed ov
  | _ => false
  end.

(** [s'] has no more disposals than [s]. *)
Definition undisposed_as (s s' : NbTooltipDirective) : Prop :=
  List.filter is_dispose (log s') = List.filter is_dispose (log s) ∧
  disposed s' = disposed s.


(** The operations through which `show()` can run. *)
Definition may_show (o : Op) : bool :=
  match o with
  | Show | Toggle | Next (show_next _) => true
  | _ => false
  end.

Definition is_teardown (o : Op) : bool :=
  match o with NgOnDestroy => true | _ => false end.

(** ** Predicates of the further properties *)

Definition is_enter_show (e : Event) : bool :=
  match e with enter_show => true | _ => false end.

(** A strategy object is built. *)
Definition is_strategy_build (e : Event) : bool :=
  is_createPositionStrategy e || is_createTriggerStrategy e.

Definition is_init (o : Op) : bool :=
  match o with NgAfterViewInit => true | _ => false end.

(** The operations that assign an input. *)
Definition is_input (o : Op) : bool :=
  match o with
  | SetContent _ | SetPosition _ | SetAdjustment _ | SetTrigger _
  | SetIcon _ | SetStatus _ => true
  | _ => false
  end.

(** The inputs and the injected host, together. *)
Definition inputs (s : NbTooltipDirective)
  : gmap string string * Ref string * NbPosition.t * NbAdjustment.t
    * NbTrigger.t * ElementRef :=
  (context s, content s, position s, adjustment s, trigger s, hostRef s).

(** The subscription is open and listens to the stream of the value. *)
Definition receives (n : Notification) (sub : Subscription) : bool :=
  negb (sub_completed sub) && bool_decide (sub_stream sub = stream_of n).

(** How many subscriptions of the directive receive the value. *)
Definition receivers (n : Notification) (s : NbTooltipDirective) : nat :=
  length (List.filter (receives n) (subscriptions s)).

(** The same subscription, possibly completed since. *)
Definition only_completes (a b : Subscription) : Prop :=
  sub_stream b = sub_stream a ∧
  (sub_completed a = true → sub_completed b = true).

(** The three subscriptions `ngAfterViewInit` makes in a state. *)
Definition init_subscriptions (s : NbTooltipDirective) : list Subscription :=
  [{| sub_stream := show_stream (next_id s); sub_completed := false |};
   {| sub_stream := hide_stream (next_id s); sub_completed := false |};
   {| sub_stream := positionChange (S (next_id s)); sub_completed := false |}].

(** The cached content is set exactly when the handle has content. *)
Definition in_sync (s : NbTooltipDirective) : Prop :=
  shown s = truthy (container s).

(** How often the renderer was called, and how often `show` was entered. *)
Definition renders (s : NbTooltipDirective) : nat :=
  length (List.filter is_createContainer (log s)).

Definition shows (s : NbTooltipDirective) : nat :=
  length (List.filter is_enter_show (log s)).

(** The directive holds the handle of identity [id] and configuration [cfg]. *)
Definition holds_configured (id : nat) (cfg : NbOverlayConfig)
    (s : NbTooltipDirective) : Prop :=
  ∃ ov, ref s = obj ov ∧ ov_id ov = id ∧ ov_config ov = cfg.

(** ** Concrete directives *)

(** A directive that was initialised. *)
Definition initialised : NbTooltipDirective := ngAfterViewInit (new host0).

(** A directive that was initialised and shown once, and the overlay
    handle it then holds. *)
Definition shown_once : NbTooltipDirective :=
  run [NgAfterViewInit; Show] (new host0).

Definition handle0 : NbOverlayRef :=
  {| ov_id := 2;
     ov_config :=
       {| cfg_positionStrategy :=
            obj {| ps_id := 1; ps_host := host0; ps_position := NbPosition.TOP;
                   ps_adjustment := NbAdjustment.CLOCKWISE; ps_offset := 8 |};
          cfg_scrollStrategy := reposition |};
     ov_attached := true;
     ov_disposed := false |}.

(** A directive that was initialised, shown once and destroyed. *)
Definition destroyed : NbTooltipDirective := ngOnDestroy shown_once.

(** * Properties *)

(** ** The log only grows, and what each method adds *)

(** Unfold the methods down to field assignments. *)
Ltac unfold_methods :=
  unfold toggle, ngOnDestroy, show, hide, openTooltip, createOverlay,
    createContainer, overlay_create, record in *; simpl in *.

(** Split on what the handle field holds and simplify with it. *)
Ltac case_ref s :=
  let E := fresh "Eref" in
  destruct (ref s) eqn:E; simpl; repeat (rewrite E; simpl);
  rewrite <- ?app_assoc; simpl.

Lemma show_log s :
  log (show s) =
  log s ++ enter_show ::
    match ref s with
    | obj ov =>
        [ev_createContainer ov
           {| prop_position := position s; prop_content := content s |}]
    | _ =>
        let cfg := {| cfg_positionStrategy := positionStrategy s;
                      cfg_scrollStrategy := reposition |} in
        [ev_overlay_create cfg;
         ev_createContainer (overlay_create (next_id s) cfg)
           {| prop_position := position s; prop_content := content s |}]
    end.
Proof.
  unfold_methods. case_ref s; reflexivity.
Qed.

Lemma show_ref s :
  ref (show s) =
  obj (Overlay.attach
         match ref s with
         | obj ov => ov
         | _ => overlay_create (next_id s)
                  {| cfg_positionStrategy := positionStrategy s;
                     cfg_scrollStrategy := reposition |}
         end).
Proof. unfold_methods. case_ref s; reflexivity. Qed.

Lemma show_container s :
  container (show s) =
  obj {| c_id := match ref s with obj _ => next_id s | _ => S (next_id s) end;
         c_position := position s; c_content := content s |}.
Proof. unfold_methods. case_ref s; reflexivity. Qed.

Lemma hide_log s :
  log (hide s) =
  log s ++ enter_hide ::
    match ref s with
    | obj ov => [ev_detach (ov_id ov)]
    | _ => []
    end.
Proof.
  unfold_methods. case_ref s; reflexivity.
Qed.

Lemma hide_ref s :
  ref (hide s) =
  match ref s with
  | obj ov => obj (Overlay.detach ov)
  | r => r
  end.
Proof. unfold_methods. case_ref s; reflexivity. Qed.

Lemma hide_container s : container (hide s) = null.
Proof. reflexivity. Qed.

Lemma overlays_created_app s s' evs :
  log s' = log s ++ evs →
  overlays_created s' = (overlays_created s + length (List.filter is_overlay_create evs))%nat.
Proof.
  unfold overlays_created. intros ->. by rewrite List.filter_app, length_app.
Qed.

Lemma show_overlays_created s :
  overlays_created (show s)
  = (overlays_created s + (if truthy (ref s) then 0 else 1))%nat.
Proof.
  rewrite (overlays_created_app s (show s) _ (show_log s)).
  destruct (ref s); reflexivity.
Qed.

Lemma hide_overlays_created s : overlays_created (hide s) = overlays_created s.
Proof.
  rewrite (overlays_created_app s (hide s) _ (hide_log s)).
  destruct (ref s); simpl; lia.
Qed.

Lemma ngOnDestroy_log s :
  log (ngOnDestroy s) =
  log s ++ enter_hide ::
    match ref s with
    | obj ov => [ev_detach (ov_id ov); ev_dispose (ov_id ov)]
    | _ => []
    end.
Proof. unfold_methods. case_ref s; reflexivity. Qed.

Lemma ngOnDestroy_ref s :
  ref (ngOnDestroy s) =
  match ref s with
  | obj ov => obj (Overlay.dispose ov)
  | r => r
  end.
Proof. unfold_methods. case_ref s; reflexivity. Qed.

Lemma ngOnDestroy_alive s : alive (ngOnDestroy s) = false.
Proof. unfold_methods. case_ref s; reflexivity. Qed.

Lemma ngOnDestroy_container s : container (ngOnDestroy s) = null.
Proof. unfold_methods. case_ref s; reflexivity. Qed.

Lemma ngAfterViewInit_log s :
  log (ngAfterViewInit s) =
  log s ++
    [ev_createTriggerStrategy
       {| ts_id := next_id s; ts_trigger := trigger s;
          ts_host := nativeElement (hostRef s) |};
     ev_subscribe (show_stream (next_id s));
     ev_subscribe (hide_stream (next_id s));
     ev_createPositionStrategy
       {| ps_id := S (next_id s); ps_host := hostRef s;
          ps_position := position s; ps_adjustment := adjustment s;
          ps_offset := 8 |};
     ev_subscribe (positionChange (S (next_id s)))].
Proof.
  unfold ngAfterViewInit, subscribeOnPositionChange, subscribeOnTriggers,
    createPositionStrategy, createTriggerStrategy, subscribe, record.
  simpl. rewrite <- !app_assoc. reflexivity.
Qed.

Lemma ngAfterViewInit_ref s : ref (ngAfterViewInit s) = ref s.
Proof. reflexivity. Qed.

(** ** Delivery: what holds of the handlers holds of every emission *)

Section Delivery.
Variable P : NbTooltipDirective → Prop.
Variable n : Notification.
Hypothesis P_handler : ∀ s, P s → P (handler n s).

Lemma deliver_preserves sub s : P s → P (deliver n sub s).2.
Proof.
  intros HP. unfold deliver.
  destruct (sub_completed sub); [done|].
  destruct (decide _); [|done].
  destruct (alive s); simpl; auto.
Qed.

Lemma deliver_all_preserves subs : ∀ s, P s → P (deliver_all n subs s).2.
Proof.
  induction subs as [|sub rest IH]; intros s HP; simpl; [done|].
  apply IH, deliver_preserves, HP.
Qed.

Hypothesis P_subscriptions : ∀ subs s, P s → P (with_subscriptions subs s).

Lemma next_preserves s : P s → P (next n s).
Proof.
  intros HP. unfold next. apply P_subscriptions, deliver_all_preserves, HP.
Qed.
End Delivery.

(** ** One overlay handle per directive *)

Lemma one_handle_show s : one_handle s → one_handle (show s).
Proof.
  unfold one_handle. rewrite show_overlays_created, show_ref. simpl.
  destruct (truthy (ref s)); lia.
Qed.

Lemma one_handle_hide s : one_handle s → one_handle (hide s).
Proof.
  unfold one_handle. rewrite hide_overlays_created, hide_ref.
  by destruct (ref s).
Qed.

Lemma one_handle_handler n s : one_handle s → one_handle (handler n s).
Proof.
  destruct n; [|apply one_handle_show|apply one_handle_hide].
  unfold one_handle, handler, overlays_created, record. simpl.
  rewrite List.filter_app, length_app. simpl. lia.
Qed.

Lemma one_handle_step o s : one_handle s → one_handle (step o s).
Proof.
  destruct o; simpl; try done;
    auto using one_handle_show, one_handle_hide.
  - unfold one_handle.
    rewrite (overlays_created_app s _ _ (ngAfterViewInit_log s)). simpl. lia.
  - unfold one_handle.
    rewrite (overlays_created_app s _ _ (ngOnDestroy_log s)), ngOnDestroy_ref.
    destruct (ref s); simpl; lia.
  - unfold toggle. destruct (shown s); auto using one_handle_show, one_handle_hide.
  - apply next_preserves; auto using one_handle_handler.
Qed.

Lemma one_handle_run ops : ∀ s, one_handle s → one_handle (run ops s).
Proof.
  induction ops as [|o ops IH]; intros s Hs; simpl; [done|].
  apply IH, one_handle_step, Hs.
Qed.

(** C1. At most one overlay handle exists per directive: over any run from a
    new directive (show, hide and toggle calls, and every other operation
    as well) the overlay service is asked for a handle at most once. In
    particular a second `show()` right after a first asks for none and
    keeps the handle of the first. *)
Theorem C1_at_most_one_overlay :
  (∀ host ops, overlays_created (run ops (new host)) ≤ 1) ∧
  (∀ s, overlays_created (show (show s)) = overlays_created (show s)) ∧
  (∀ s, overlays_created (show (show s)) ≤ overlays_created s + 1) ∧
  (∀ s, ∃ ov, ref (show s) = obj ov ∧ ref (show (show s)) = obj (Overlay.attach ov)).
Proof.
  repeat split.
  - intros host ops.
    assert (H : one_handle (run ops (new host))) by (by apply one_handle_run).
    unfold one_handle in H. rewrite H. destruct (truthy _); lia.
  - intros s. rewrite (show_overlays_created (show s)), show_ref. simpl. lia.
  - intros s. rewrite (show_overlays_created (show s)), show_ref. simpl.
    rewrite show_overlays_created. destruct (truthy (ref s)); lia.
  - intros s. eexists. split; [apply show_ref|].
    rewrite (show_ref (show s)), show_ref. reflexivity.
Qed.

(** ** Showing again *)

(** C2, as stated, fails: on a directive whose content is shown, a second
    `show()` is not skipped; it calls the renderer again. *)
Lemma C2_show_again_calls_renderer :
  shown shown_once = true ∧
  length (List.filter is_createContainer (log shown_once)) = 1%nat ∧
  length (List.filter is_createContainer (log (show shown_once))) = 2%nat.
Proof.
  split; [by vm_compute|]. split; by vm_compute.
Qed.

(** C2, amended. `show()` on a directive that has a handle asks for no
    second overlay and keeps the handle, but it is not skipped: it calls the
    renderer again, one `createContainer` on the existing handle with the
    current inputs. A position change, by contrast, patches the position
    field of the cached content and keeps the component. *)
Theorem C2_show_again_reuses_handle s ov :
  ref s = obj ov →
  overlays_created (show s) = overlays_created s ∧
  (∃ ov', ref (show s) = obj ov' ∧
          ov_id ov' = ov_id ov ∧
          ov_config ov' = ov_config ov ∧
          ov_disposed ov' = ov_disposed ov) ∧
  log (show s) =
    log s ++ [enter_show;
              ev_createContainer ov
                {| prop_position := position s; prop_content := content s |}] ∧
  (∀ ps p c, container s = obj c →
     container (handler (positionChange_next ps p) s) =
       obj {| c_id := c_id c; c_position := p; c_content := c_content c |} ∧
     log (handler (positionChange_next ps p) s) = log s ++ [ev_patch (obj c) p] ∧
     ref (handler (positionChange_next ps p) s) = ref s).
Proof.
  intros Href. split; [|split; [|split]].
  - rewrite show_overlays_created, Href. simpl. lia.
  - eexists. rewrite show_ref, Href. done.
  - by rewrite show_log, Href.
  - intros ps p c Hc. simpl. by rewrite Hc.
Qed.

Lemma C2_show_again_reuses_handle_witness :
  overlays_created (show shown_once) = overlays_created shown_once ∧
  log (show shown_once) =
    log shown_once ++
      [enter_show;
       ev_createContainer handle0
         {| prop_position := position shown_once; prop_content := content shown_once |}].
Proof.
  assert (Href : ref shown_once = obj handle0) by (by vm_compute).
  destruct (C2_show_again_reuses_handle shown_once handle0 Href)
    as (Hsame & _ & Hlog & _).
  split; [exact Hsame|exact Hlog].
Defined.

(** ** Initialisation *)

(** C3, as stated, fails: the trigger strategy is built, and its streams
    subscribed, before the position strategy is built. *)
Lemma C3_position_strategy_not_first :
  ¬ before is_createPositionStrategy is_createTriggerStrategy (log initialised) ∧
  before is_createTriggerStrategy is_createPositionStrategy (log initialised).
Proof.
  split.
  - intros (i & j & Hi & Hj & Hlt). vm_compute in Hi, Hj. simplify_eq. lia.
  - exists 0%nat, 3%nat. split; [by vm_compute|]. split; [by vm_compute|lia].
Qed.

(** C3, amended. Initialisation performs its steps in this order: build the
    trigger strategy (from the trigger mode and the host element), subscribe
    to its show stream, then to its hide stream, then build the position
    strategy (from placement, adjustment and offset 8, connected to the
    host), store it, and subscribe to its position changes. On an
    initialised directive a show signal runs `show()`, a hide signal runs
    `hide()`. *)
Theorem C3_initialisation_order :
  (∀ s,
     log (ngAfterViewInit s) =
       log s ++
       [ev_createTriggerStrategy
          {| ts_id := next_id s; ts_trigger := trigger s;
             ts_host := nativeElement (hostRef s) |};
        ev_subscribe (show_stream (next_id s));
        ev_subscribe (hide_stream (next_id s));
        ev_createPositionStrategy
          {| ps_id := S (next_id s); ps_host := hostRef s;
             ps_position := position s; ps_adjustment := adjustment s;
             ps_offset := 8 |};
        ev_subscribe (positionChange (S (next_id s)))] ∧
     subscriptions (ngAfterViewInit s) =
       subscriptions s ++
       [{| sub_stream := show_stream (next_id s); sub_completed := false |};
        {| sub_stream := hide_stream (next_id s); sub_completed := false |};
        {| sub_stream := positionChange (S (next_id s)); sub_completed := false |}] ∧
     positionStrategy (ngAfterViewInit s) =
       obj {| ps_id := S (next_id s); ps_host := hostRef s;
              ps_position := position s; ps_adjustment := adjustment s;
              ps_offset := 8 |}) ∧
  (∀ host,
     let s := ngAfterViewInit (new host) in
     before is_createTriggerStrategy is_createPositionStrategy (log s) ∧
     next (show_next 0) s = show s ∧
     next (hide_next 0) s = hide s).
Proof.
  split.
  - intros s. split; [apply ngAfterViewInit_log|].
    unfold ngAfterViewInit, subscribeOnPositionChange, subscribeOnTriggers,
      createPositionStrategy, createTriggerStrategy, subscribe, record.
    simpl. rewrite <- !app_assoc. done.
  - intros host s. subst s. split; [|split; by vm_compute].
    exists 0%nat, 3%nat. split; [by vm_compute|]. split; [by vm_compute|lia].
Qed.

(** ** Hiding and toggling *)

(** An event of another kind is not in a short explicit log. *)
Ltac not_in_log :=
  let Hin := fresh "Hin" in
  intros Hin; simpl in Hin;
  repeat rewrite elem_of_cons in Hin; rewrite elem_of_nil in Hin;
  intuition discriminate.

Lemma detach_not_attached ov : ov_attached ov = false → Overlay.detach ov = ov.
Proof. destruct ov. simpl. by intros ->. Qed.

Lemma shown_show s : shown (show s) = true.
Proof. unfold shown. by rewrite show_ref. Qed.

Lemma shown_hide s : shown (hide s) = false.
Proof. unfold shown. rewrite hide_ref. by destruct (ref s). Qed.

(** C4. With a handle, `hide()` detaches the content from the overlay and
    keeps the handle, which is not disposed, and sets the cached content to
    null. With nothing shown, `hide()` changes no overlay: the handle field
    and the overlay behind it are as before, no method is called on a
    missing handle, and the directive differs from before only in its cached
    content, now null, and in its log. *)
Theorem C4_hide_detaches_and_keeps_handle :
  (∀ s ov, ref s = obj ov →
     ref (hide s) = obj (Overlay.detach ov) ∧
     ov_id (Overlay.detach ov) = ov_id ov ∧
     ov_disposed (Overlay.detach ov) = ov_disposed ov ∧
     ov_attached (Overlay.detach ov) = false ∧
     container (hide s) = null ∧
     log (hide s) = log s ++ [enter_hide; ev_detach (ov_id ov)]) ∧
  (∀ s, shown s = false →
     ref (hide s) = ref s ∧
     container (hide s) = null ∧
     hide s = with_container null (with_log (log (hide s)) s) ∧
     List.filter is_dispose (log (hide s)) = List.filter is_dispose (log s) ∧
     overlays_created (hide s) = overlays_created s) ∧
  (∀ s, truthy (ref s) = false → log (hide s) = log s ++ [enter_hide]).
Proof.
  split; [|split].
  - intros s ov Href. rewrite hide_ref, hide_log, Href. done.
  - intros s Hshown. unfold shown in Hshown.
    assert (Href : ref (hide s) = ref s).
    { rewrite hide_ref. destruct (ref s) as [| |ov]; [done..|].
      by rewrite detach_not_attached. }
    split; [done|]. split; [done|]. split; [|split].
    + rewrite hide_log. unfold_methods.
      destruct s as [? ? ? ? ? ? [| |ov] ? ? ? ? ? ?]; simpl in *;
        rewrite <- ?app_assoc; [done..|].
      by rewrite detach_not_attached.
    + rewrite hide_log, List.filter_app. simpl.
      destruct (ref s); simpl; by rewrite ?app_nil_r.
    + apply hide_overlays_created.
  - intros s Href. rewrite hide_log. by destruct (ref s).
Qed.

Lemma C4_hide_detaches_and_keeps_handle_witness :
  shown (hide shown_once) = false ∧
  ref (hide (hide shown_once)) = ref (hide shown_once) ∧
  log (hide (new host0)) = [enter_hide].
Proof.
  destruct C4_hide_detaches_and_keeps_handle as (_ & Hnoop & Hmissing).
  split; [by vm_compute|].
  split.
  - apply (Hnoop (hide shown_once)). by vm_compute.
  - apply (Hmissing (new host0)). by vm_compute.
Defined.

(** C5. `toggle()` calls `hide()` if the handle exists and has content
    attached, and `show()` otherwise, and calls only that one. From the
    hidden state the first toggle shows, the second hides, the third shows
    again. *)
Theorem C5_toggle_alternates :
  (∀ s, shown s = true →
     toggle s = hide s ∧ enter_show ∉ drop (length (log s)) (log (toggle s))) ∧
  (∀ s, shown s = false →
     toggle s = show s ∧ enter_hide ∉ drop (length (log s)) (log (toggle s))) ∧
  (∀ s, shown s = false →
     toggle s = show s ∧
     shown (toggle s) = true ∧
     toggle (toggle s) = hide (show s) ∧
     shown (toggle (toggle s)) = false ∧
     toggle (toggle (toggle s)) = show (hide (show s)) ∧
     shown (toggle (toggle (toggle s))) = true).
Proof.
  assert (Hhide : ∀ s, shown s = true → toggle s = hide s)
    by (intros s H; unfold toggle; by rewrite H).
  assert (Hshow : ∀ s, shown s = false → toggle s = show s)
    by (intros s H; unfold toggle; by rewrite H).
  split; [|split].
  - intros s H. split; [by apply Hhide|].
    rewrite (Hhide s H), hide_log, drop_app_length.
    destruct (ref s); not_in_log.
  - intros s H. split; [by apply Hshow|].
    rewrite (Hshow s H), show_log, drop_app_length.
    destruct (ref s); not_in_log.
  - intros s H.
    rewrite (Hshow s H), (Hhide (show s) (shown_show s)),
      (Hshow (hide (show s)) (shown_hide _)).
    by rewrite !shown_show, shown_hide.
Qed.

Lemma C5_toggle_alternates_witness :
  toggle (new host0) = show (new host0) ∧
  toggle shown_once = hide shown_once ∧
  shown (toggle (toggle (toggle (new host0)))) = true.
Proof.
  destruct C5_toggle_alternates as (Hhide & Hshow & Hthree).
  split; [|split].
  - apply (Hshow (new host0)). by vm_compute.
  - apply (Hhide shown_once). by vm_compute.
  - apply (Hthree (new host0)). by vm_compute.
Defined.

(** ** Teardown *)

(** With the liveness flag down, a value reaching a subscription leaves the
    directive alone; at most it completes the subscription. *)
Lemma deliver_not_alive n sub s :
  alive s = false → (deliver n sub s).2 = s.
Proof.
  intros Halive. unfold deliver.
  destruct (sub_completed sub); [done|].
  destruct (decide _); [|done]. by rewrite Halive.
Qed.

Lemma deliver_all_not_alive n subs s :
  alive s = false → (deliver_all n subs s).2 = s.
Proof.
  intros Halive. induction subs as [|sub rest IH]; simpl; [done|].
  by rewrite deliver_not_alive.
Qed.

Lemma next_not_alive n s :
  alive s = false →
  next n s = with_subscriptions (subscriptions (next n s)) s.
Proof.
  intros Halive. unfold next. by rewrite deliver_all_not_alive.
Qed.

(** The flag, once down, stays down. *)
Lemma alive_show s : alive (show s) = alive s.
Proof. unfold_methods. case_ref s; reflexivity. Qed.

Lemma alive_hide s : alive (hide s) = alive s.
Proof. unfold_methods. case_ref s; reflexivity. Qed.

Lemma not_alive_handler n s : alive s = false → alive (handler n s) = false.
Proof. destruct n; cbv [handler]; by rewrite ?alive_show, ?alive_hide. Qed.

Lemma not_alive_step o s : alive s = false → alive (step o s) = false.
Proof.
  destruct o; cbv [step]; try done.
  - intros _. apply ngOnDestroy_alive.
  - by rewrite alive_show.
  - by rewrite alive_hide.
  - unfold toggle. destruct (shown s); by rewrite ?alive_show, ?alive_hide.
  - apply (next_preserves (λ s, alive s = false)); auto using not_alive_handler.
Qed.

(** C6. Once teardown has set the liveness flag to false, no value emitted
    on a position-change, show or hide stream changes the directive: its
    fields and its log are as before (so the content is not patched and
    neither `show()` nor `hide()` runs); only the subscriptions themselves
    may complete. The flag stays false under every later operation. *)
Theorem C6_no_reaction_after_teardown :
  (∀ s, alive (ngOnDestroy s) = false) ∧
  (∀ o s, alive s = false → alive (step o s) = false) ∧
  (∀ n s, alive s = false →
     next n s = with_subscriptions (subscriptions (next n s)) s ∧
     log (next n s) = log s ∧
     container (next n s) = container s ∧
     ref (next n s) = ref s) ∧
  (∀ ns s,
     let d := ngOnDestroy s in
     let d' := foldl (λ s n, next n s) d ns in
     d' = with_subscriptions (subscriptions d') d).
Proof.
  split; [apply ngOnDestroy_alive|].
  split; [apply not_alive_step|].
  assert (Hone : ∀ n s, alive s = false →
            next n s = with_subscriptions (subscriptions (next n s)) s)
    by apply next_not_alive.
  split.
  - intros n s Halive. split; [by apply Hone|].
    by rewrite (Hone n s Halive).
  - intros ns s d d'. subst d'.
    assert (Hd : alive d = false) by apply ngOnDestroy_alive.
    assert (Hgen : ∀ x, alive x = false →
              foldl (λ s n, next n s) x ns
              = with_subscriptions (subscriptions (foldl (λ s n, next n s) x ns)) x).
    { clear. induction ns as [|n ns IH]; intros x Hx; simpl.
      - by destruct x.
      - assert (Hnx : alive (next n x) = false)
          by (by rewrite (next_not_alive n x Hx)).
        pose proof (IH _ Hnx) as HF.
        set (F := foldl _ (next n x) ns) in *.
        etrans; [exact HF|]. by rewrite (next_not_alive n x Hx). }
    by apply Hgen.
Qed.

Lemma C6_no_reaction_after_teardown_witness :
  container (next (positionChange_next 1 NbPosition.LEFT) (show destroyed))
    = container (show destroyed) ∧
  log (next (show_next 0) destroyed) = log destroyed ∧
  log (next (hide_next 0) destroyed) = log destroyed.
Proof.
  destruct C6_no_reaction_after_teardown as (_ & _ & Hnext & _).
  split; [|split].
  - apply (Hnext (positionChange_next 1 NbPosition.LEFT) (show destroyed)).
    by vm_compute.
  - apply (Hnext (show_next 0) destroyed). by vm_compute.
  - apply (Hnext (hide_next 0) destroyed). by vm_compute.
Defined.

Lemma disposed_show s : disposed (show s) = disposed s.
Proof. unfold disposed. rewrite show_ref. by destruct (ref s). Qed.

Lemma disposed_hide s : disposed (hide s) = disposed s.
Proof. unfold disposed. rewrite hide_ref. by destruct (ref s). Qed.

Lemma undisposed_as_show s0 s : undisposed_as s0 s → undisposed_as s0 (show s).
Proof.
  intros [Hlog Hd]. unfold undisposed_as.
  rewrite disposed_show, show_log, List.filter_app, Hlog.
  split; [|done]. destruct (ref s); simpl; by rewrite app_nil_r.
Qed.

Lemma undisposed_as_hide s0 s : undisposed_as s0 s → undisposed_as s0 (hide s).
Proof.
  intros [Hlog Hd]. unfold undisposed_as.
  rewrite disposed_hide, hide_log, List.filter_app, Hlog.
  split; [|done]. destruct (ref s); simpl; by rewrite app_nil_r.
Qed.

Lemma undisposed_as_handler s0 n s :
  undisposed_as s0 s → undisposed_as s0 (handler n s).
Proof.
  destruct n; cbv [handler];
    [|apply undisposed_as_show|apply undisposed_as_hide].
  intros [Hlog Hd]. unfold undisposed_as, record. simpl.
  rewrite List.filter_app, Hlog. simpl. by rewrite app_nil_r.
Qed.

Lemma undisposed_as_refl s : undisposed_as s s.
Proof. done. Qed.

Lemma undisposed_as_step o s :
  is_teardown o = false → undisposed_as s (step o s).
Proof.
  destruct o; cbv [step]; try done; intros _.
  - unfold undisposed_as, disposed.
    rewrite ngAfterViewInit_log, ngAfterViewInit_ref, List.filter_app.
    simpl. by rewrite app_nil_r.
  - apply undisposed_as_show, undisposed_as_refl.
  - apply undisposed_as_hide, undisposed_as_refl.
  - unfold toggle. destruct (shown s);
      [apply undisposed_as_hide|apply undisposed_as_show]; apply undisposed_as_refl.
  - apply (next_preserves (undisposed_as s));
      auto using undisposed_as_handler, undisposed_as_refl.
Qed.

Lemma overlays_created_handler_no_show n s :
  (∀ ts, n ≠ show_next ts) →
  overlays_created (handler n s) = overlays_created s.
Proof.
  destruct n; cbv [handler]; intros Hn.
  - unfold overlays_created, record. simpl.
    rewrite List.filter_app, length_app. simpl. lia.
  - by destruct (Hn ts).
  - apply hide_overlays_created.
Qed.

Lemma overlays_created_step_no_show o s :
  may_show o = false → overlays_created (step o s) = overlays_created s.
Proof.
  destruct o; cbv [step]; try done; intros Ho.
  - rewrite (overlays_created_app s _ _ (ngAfterViewInit_log s)). simpl. lia.
  - rewrite (overlays_created_app s _ _ (ngOnDestroy_log s)).
    destruct (ref s); simpl; lia.
  - apply hide_overlays_created.
  - apply (next_preserves (λ x, overlays_created x = overlays_created s));
      [|done..].
    intros x <-. apply overlays_created_handler_no_show.
    intros ts ->. discriminate.
Qed.

(** C7. Teardown sets the liveness flag to false, calls `hide()`, and then
    disposes the handle if there is one: with a handle the log gains the
    entry into `hide`, the detach and the dispose, in this order. No other
    operation disposes; the handle comes into being in `show()`, not at
    construction nor at initialisation, and `hide()` detaches it only. *)
Theorem C7_teardown_disposes :
  (∀ s,
     ngOnDestroy s =
       match ref s with
       | obj ov =>
           with_ref (obj (Overlay.dispose ov))
             (record (ev_dispose (ov_id ov)) (hide (with_alive false s)))
       | _ => hide (with_alive false s)
       end) ∧
  (∀ s ov, ref s = obj ov →
     alive (ngOnDestroy s) = false ∧
     log (ngOnDestroy s) =
       log s ++ [enter_hide; ev_detach (ov_id ov); ev_dispose (ov_id ov)] ∧
     ref (ngOnDestroy s) = obj (Overlay.dispose ov) ∧
     disposed (ngOnDestroy s) = true ∧
     shown (ngOnDestroy s) = false ∧
     container (ngOnDestroy s) = null) ∧
  (∀ s, truthy (ref s) = false →
     alive (ngOnDestroy s) = false ∧
     log (ngOnDestroy s) = log s ++ [enter_hide] ∧
     ref (ngOnDestroy s) = ref s) ∧
  (∀ o s, is_teardown o = false →
     List.filter is_dispose (log (step o s)) = List.filter is_dispose (log s) ∧
     disposed (step o s) = disposed s) ∧
  (∀ host, ref (new host) = undefined ∧ overlays_created (new host) = 0%nat) ∧
  (∀ o s, may_show o = false → overlays_created (step o s) = overlays_created s) ∧
  (∀ s, truthy (ref s) = false →
     overlays_created (show s) = S (overlays_created s) ∧
     truthy (ref (show s)) = true ∧ disposed (show s) = false).
Proof.
  split; [|split; [|split; [|split; [|split; [|split]]]]].
  - intros s. unfold_methods. case_ref s; reflexivity.
  - intros s ov Href.
    unfold disposed, shown.
    rewrite ngOnDestroy_alive, ngOnDestroy_log, ngOnDestroy_ref,
      ngOnDestroy_container, Href. done.
  - intros s Href.
    rewrite ngOnDestroy_alive, ngOnDestroy_log, ngOnDestroy_ref.
    by destruct (ref s).
  - apply undisposed_as_step.
  - done.
  - apply overlays_created_step_no_show.
  - intros s Href. unfold disposed.
    rewrite show_overlays_created, show_ref, Href.
    split; [lia|]. by destruct (ref s).
Qed.

Lemma C7_teardown_disposes_witness :
  log destroyed = log shown_once ++ [enter_hide; ev_detach 2; ev_dispose 2] ∧
  log (ngOnDestroy initialised) = log initialised ++ [enter_hide] ∧
  disposed (hide shown_once) = false ∧
  overlays_created (hide shown_once) = 1%nat ∧
  overlays_created (show initialised) = 1%nat.
Proof.
  destruct C7_teardown_disposes as (_ & Hwith & Hwithout & Hkeep & _ & Hlazy & Hshow).
  split; [|split; [|split; [|split]]].
  - assert (Href : ref shown_once = obj handle0) by (by vm_compute).
    apply (Hwith shown_once handle0 Href).
  - apply (Hwithout initialised). by vm_compute.
  - destruct (Hkeep Hide shown_once eq_refl) as [_ Hd].
    etrans; [exact Hd|]. by vm_compute.
  - etrans; [exact (Hlazy Hide shown_once eq_refl)|]. by vm_compute.
  - destruct (Hshow initialised) as (-> & _); by vm_compute.
Defined.

(** ** The overlay configuration *)

Lemma show_after_init_creates s :
  truthy (ref s) = false →
  List.filter is_overlay_create (log (show (ngAfterViewInit s))) =
  List.filter is_overlay_create (log s) ++
    [ev_overlay_create
       {| cfg_positionStrategy :=
            obj {| ps_id := S (next_id s); ps_host := hostRef s;
                   ps_position := position s; ps_adjustment := adjustment s;
                   ps_offset := 8 |};
          cfg_scrollStrategy := reposition |}].
Proof.
  intros Href.
  assert (Hpos := ngAfterViewInit_log s).
  rewrite show_log, ngAfterViewInit_ref, Hpos, !List.filter_app.
  replace (positionStrategy (ngAfterViewInit s)) with
    (obj {| ps_id := S (next_id s); ps_host := hostRef s;
            ps_position := position s; ps_adjustment := adjustment s;
            ps_offset := 8%Z |}) by reflexivity.
  destruct (ref s); [| |done]; simpl; by rewrite app_nil_r.
Qed.

(** C8. For every placement P and adjustment policy A (and every trigger
    mode and content), a directive constructed with those values,
    initialised and shown asks the overlay service for exactly one overlay,
    whose configuration carries the position strategy connected to the host
    with position P, adjustment A and offset 8, and the reposition scroll
    strategy. *)
Theorem C8_overlay_configuration :
  ∀ host P A T c,
    let s := show (ngAfterViewInit
               (with_content c (with_trigger T
                  (with_adjustment A (with_position P (new host))))))
    in
    overlays_created s = 1%nat ∧
    ∃ id,
      List.filter is_overlay_create (log s) =
      [ev_overlay_create
         {| cfg_positionStrategy :=
              obj (NbPositionBuilderService.offset 8
                     (NbPositionBuilderService.adjustment A
                        (NbPositionBuilderService.position P
                           (NbPositionBuilderService.connectedTo id host))));
            cfg_scrollStrategy := reposition |}] ∧
      positionStrategy s = obj {| ps_id := id; ps_host := host; ps_position := P;
                                  ps_adjustment := A; ps_offset := 8 |}.
Proof.
  intros host P A T c s. subst s.
  set (s0 := with_content _ _).
  assert (Hcreated := show_after_init_creates s0 eq_refl).
  split.
  - unfold overlays_created. by rewrite Hcreated.
  - exists 1%nat. split; [exact Hcreated|]. by vm_compute.
Qed.

(** ** The content context *)

(** C9. The icon and status setters each write one key of the context and
    keep every other key: after setting both, in either order, the context
    holds both entries, and whatever else it held before. *)
Theorem C9_context_merge :
  ∀ s icon status,
    let a := set_status status (set_icon icon s) in
    let b := set_icon icon (set_status status s) in
    context a !! "icon" = Some icon ∧
    context a !! "status" = Some status ∧
    context b !! "icon" = Some icon ∧
    context b !! "status" = Some status ∧
    context a = context b ∧
    (∀ k, k ≠ "icon" → context (set_icon icon s) !! k = context s !! k) ∧
    (∀ k, k ≠ "status" → context (set_status status s) !! k = context s !! k) ∧
    (∀ k, k ≠ "icon" → k ≠ "status" → context a !! k = context s !! k).
Proof.
  intros s icon status a b. subst a b. unfold set_status, set_icon. simpl.
  repeat split.
  - by rewrite lookup_insert_ne, lookup_insert_eq.
  - by rewrite lookup_insert_eq.
  - by rewrite lookup_insert_eq.
  - by rewrite lookup_insert_ne, lookup_insert_eq.
  - by apply insert_insert_ne.
  - intros k Hk. by rewrite lookup_insert_ne.
  - intros k Hk. by rewrite lookup_insert_ne.
  - intros k Hi Hs. by rewrite !lookup_insert_ne.
Qed.

Lemma C9_context_merge_witness :
  context (set_status "danger" (set_icon "home"
     (with_context {["title" := "kept"]} (new host0)))) !! "title" = Some "kept".
Proof.
  destruct (C9_context_merge (with_context {["title" := "kept"]} (new host0))
              "home" "danger") as (_ & _ & _ & _ & _ & _ & _ & Hkeep).
  rewrite (Hkeep "title"); [by vm_compute|discriminate|discriminate].
Defined.

(** ** The handle is for life *)











(** * Further properties *)

(** ** What the handlers leave alone *)

Lemma subscriptions_show s : subscriptions (show s) = subscriptions s.
Proof. unfold_methods. case_ref s; reflexivity. Qed.

Lemma subscriptions_hide s : subscriptions (hide s) = subscriptions s.
Proof. unfold_methods. case_ref s; reflexivity. Qed.

Lemma subscriptions_handler n s : subscriptions (handler n s) = subscriptions s.
Proof.
  destruct n; cbv [handler]; [done|apply subscriptions_show|apply subscriptions_hide].
Qed.

Lemma alive_handler n s : alive (handler n s) = alive s.
Proof. destruct n; cbv [handler]; [done|apply alive_show|apply alive_hide]. Qed.

Lemma with_subscriptions_id s : with_subscriptions (subscriptions s) s = s.
Proof. by destruct s. Qed.

Lemma subscriptions_iter_handler n k s :
  subscriptions (Nat.iter k (handler n) s) = subscriptions s.
Proof.
  induction k as [|k IH]; simpl; [done|]. by rewrite subscriptions_handler.
Qed.

Lemma alive_iter_handler n k s : alive (Nat.iter k (handler n) s) = alive s.
Proof. induction k as [|k IH]; simpl; [done|]. by rewrite alive_handler. Qed.

(** ** Delivery while the directive is alive *)

Lemma deliver_alive n sub s :
  alive s = true →
  deliver n sub s = (sub, if receives n sub then handler n s else s).
Proof.
  intros Halive. unfold deliver, receives.
  destruct (sub_completed sub); [done|]. simpl.
  destruct (decide _) as [Heq|Hne].
  - by rewrite Halive, bool_decide_true.
  - by rewrite bool_decide_false.
Qed.

Lemma deliver_all_alive n subs : ∀ s,
  alive s = true →
  deliver_all n subs s =
    (subs, Nat.iter (length (List.filter (receives n) subs)) (handler n) s).
Proof.
  induction subs as [|sub rest IH]; intros s Halive; simpl; [done|].
  rewrite (deliver_alive n sub s Halive). simpl.
  destruct (receives n sub); simpl.
  - rewrite IH by (by rewrite alive_handler). simpl.
    by rewrite <- Nat.iter_succ_r.
  - by rewrite IH.
Qed.

Lemma next_alive n s :
  alive s = true → next n s = Nat.iter (receivers n s) (handler n) s.
Proof.
  intros Halive.
  unfold next, receivers. rewrite (deliver_all_alive n _ s Halive). simpl.
  rewrite <- (subscriptions_iter_handler n
                (length (List.filter (receives n) (subscriptions s))) s) at 1.
  apply with_subscriptions_id.
Qed.

Lemma deliver_all_no_receiver n subs : ∀ s,
  List.filter (receives n) subs = [] → deliver_all n subs s = (subs, s).
Proof.
  induction subs as [|sub rest IH]; intros s Hnone; simpl in *; [done|].
  destruct (receives n sub) eqn:Hr; [done|].
  assert (Hd : deliver n sub s = (sub, s)).
  { unfold deliver. unfold receives in Hr.
    destruct (sub_completed sub); [done|]. simpl in Hr.
    destruct (decide _) as [Heq|]; [|done].
    by rewrite bool_decide_true in Hr. }
  rewrite Hd. simpl. by rewrite IH.
Qed.

(** X1. A value emitted on a stream that no open subscription of the
    directive listens to changes nothing; this is so for every value before
    `ngAfterViewInit`. While the directive is alive, a hide signal runs
    `hide()` once for every open subscription on its stream and leaves the
    subscriptions as they are. *)
Theorem X1_emission_reaches_open_subscriptions :
  (∀ n s, receivers n s = 0%nat → next n s = s) ∧
  (∀ n s, subscriptions s = [] → next n s = s) ∧
  (∀ ts s, alive s = true →
     next (hide_next ts) s = Nat.iter (receivers (hide_next ts) s) hide s ∧
     subscriptions (next (hide_next ts) s) = subscriptions s).
Proof.
  assert (Hnone : ∀ n s, receivers n s = 0%nat → next n s = s).
  { intros n s Hr. unfold next, receivers in *.
    rewrite deliver_all_no_receiver by (by apply nil_length_inv).
    apply with_subscriptions_id. }
  split; [exact Hnone|]. split.
  - intros n s Hsubs. apply Hnone. unfold receivers. by rewrite Hsubs.
  - intros ts s Halive.
    assert (Hnext := next_alive (hide_next ts) s Halive).
    split; [exact Hnext|].
    by rewrite Hnext, subscriptions_iter_handler.
Qed.

Lemma X1_emission_reaches_open_subscriptions_witness :
  next (positionChange_next 1 NbPosition.LEFT) (new host0) = new host0 ∧
  next (hide_next 0) shown_once
    = Nat.iter (receivers (hide_next 0) shown_once) hide shown_once.
Proof.
  destruct X1_emission_reaches_open_subscriptions as (_ & Hnone & Hhide).
  assert (Halive : alive shown_once = true) by (by vm_compute).
  split.
  - by apply Hnone.
  - by destruct (Hhide 0%nat shown_once Halive) as (Hrun & _).
Defined.

(** ** Delivery after teardown, and the life of a subscription *)

Lemma deliver_all_not_alive_subs n subs s :
  alive s = false →
  (deliver_all n subs s).1 =
    map (λ sub, if receives n sub then complete sub else sub) subs.
Proof.
  intros Halive. induction subs as [|sub rest IH]; simpl; [done|].
  rewrite (deliver_not_alive n sub s Halive), IH. f_equal.
  unfold deliver, receives. destruct (sub_completed sub); [done|]. simpl.
  destruct (decide _).
  - by rewrite Halive, bool_decide_true.
  - by rewrite bool_decide_false.
Qed.

Lemma receives_after_completion n subs :
  List.filter (receives n)
    (map (λ sub, if receives n sub then complete sub else sub) subs) = [].
Proof.
  induction subs as [|sub rest IH]; simpl; [done|].
  destruct (receives n sub) eqn:Hr; simpl; [done|]. by rewrite Hr.
Qed.

(** X2. With the liveness flag false, a value completes every open
    subscription on its stream and touches no other; from then on no
    subscription of the directive receives that value's stream. *)
Theorem X2_first_value_after_teardown_unsubscribes n s :
  alive s = false →
  subscriptions (next n s) =
    map (λ sub, if receives n sub then complete sub else sub) (subscriptions s) ∧
  receivers n (next n s) = 0%nat ∧
  (∀ n' , stream_of n' = stream_of n → receivers n' (next n s) = 0%nat).
Proof.
  intros Halive.
  assert (Hsubs : subscriptions (next n s) =
            map (λ sub, if receives n sub then complete sub else sub) (subscriptions s))
    by (unfold next; simpl; by apply deliver_all_not_alive_subs).
  split; [exact Hsubs|]. split.
  - unfold receivers. by rewrite Hsubs, receives_after_completion.
  - intros n' Hsame. unfold receivers. rewrite Hsubs.
    replace (receives n') with (receives n); [by rewrite receives_after_completion|].
    unfold receives. by rewrite Hsame.
Qed.

Lemma X2_first_value_after_teardown_unsubscribes_witness :
  receivers (show_next 0) destroyed = 1%nat ∧
  receivers (show_next 0) (next (show_next 0) destroyed) = 0%nat ∧
  receivers (hide_next 0) (next (show_next 0) destroyed) = 1%nat.
Proof.
  assert (Hdead : alive destroyed = false) by (by vm_compute).
  split; [by vm_compute|]. split; [|by vm_compute].
  by destruct (X2_first_value_after_teardown_unsubscribes (show_next 0) destroyed Hdead)
    as (_ & Hnone & _).
Defined.

Lemma only_completes_refl subs : Forall2 only_completes subs subs.
Proof. induction subs; constructor; [by split|done]. Qed.

Lemma deliver_only_completes n sub s : only_completes sub (deliver n sub s).1.
Proof.
  unfold deliver, only_completes.
  destruct (sub_completed sub) eqn:Hc; simpl; [by rewrite Hc|].
  destruct (decide _); [destruct (alive s)|]; simpl; by rewrite ?Hc.
Qed.

Lemma deliver_all_only_completes n subs : ∀ s,
  Forall2 only_completes subs (deliver_all n subs s).1.
Proof.
  induction subs as [|sub rest IH]; intros s; simpl; constructor.
  - apply deliver_only_completes.
  - apply IH.
Qed.

Lemma subscriptions_ngOnDestroy s : subscriptions (ngOnDestroy s) = subscriptions s.
Proof. unfold_methods. case_ref s; reflexivity. Qed.

Lemma subscriptions_toggle s : subscriptions (toggle s) = subscriptions s.
Proof.
  unfold toggle. destruct (shown s);
    [apply subscriptions_hide|apply subscriptions_show].
Qed.

Lemma subscriptions_ngAfterViewInit s :
  subscriptions (ngAfterViewInit s) = subscriptions s ++ init_subscriptions s.
Proof.
  unfold ngAfterViewInit, subscribeOnPositionChange, subscribeOnTriggers,
    createPositionStrategy, createTriggerStrategy, subscribe, record.
  simpl. by rewrite <- !app_assoc.
Qed.

Lemma subscriptions_step o s :
  ∃ subs',
    subscriptions (step o s) =
      subs' ++ (if is_init o then init_subscriptions s else []) ∧
    Forall2 only_completes (subscriptions s) subs'.
Proof.
  destruct o; cbv [step is_init];
    try (exists (subscriptions s); rewrite app_nil_r;
         split; [reflexivity|apply only_completes_refl]).
  - exists (subscriptions s).
    split; [apply subscriptions_ngAfterViewInit|apply only_completes_refl].
  - exists (subscriptions s). rewrite app_nil_r.
    split; [apply subscriptions_ngOnDestroy|apply only_completes_refl].
  - exists (subscriptions s). rewrite app_nil_r.
    split; [apply subscriptions_show|apply only_completes_refl].
  - exists (subscriptions s). rewrite app_nil_r.
    split; [apply subscriptions_hide|apply only_completes_refl].
  - exists (subscriptions s). rewrite app_nil_r.
    split; [apply subscriptions_toggle|apply only_completes_refl].
  - exists (deliver_all n (subscriptions s) s).1. rewrite app_nil_r.
    split; [reflexivity|apply deliver_all_only_completes].
Qed.

Lemma subscriptions_step_length o s :
  length (subscriptions (step o s)) =
  (length (subscriptions s) + if is_init o then 3 else 0)%nat.
Proof.
  destruct (subscriptions_step o s) as (subs' & -> & Hsame).
  rewrite length_app, <- (Forall2_length _ _ _ Hsame).
  by destruct (is_init o).
Qed.

(** X3. Subscriptions are made by `ngAfterViewInit` only, three at a time
    (show, hide, position change), and nothing ever removes one or moves it
    to another stream: an operation keeps every earlier subscription in
    place, at most completed. After a run the directive has three
    subscriptions per initialisation. *)
Theorem X3_subscriptions_only_added_by_init :
  (∀ o s, ∃ subs',
     subscriptions (step o s) =
       subs' ++ (if is_init o then init_subscriptions s else []) ∧
     Forall2 only_completes (subscriptions s) subs') ∧
  (∀ ops s,
     length (subscriptions (run ops s)) =
     (length (subscriptions s) + 3 * length (List.filter is_init ops))%nat).
Proof.
  split; [apply subscriptions_step|].
  induction ops as [|o ops IH]; intros s; simpl; [lia|].
  rewrite IH, subscriptions_step_length.
  destruct (is_init o); simpl; lia.
Qed.

(** ** The inputs belong to the caller *)

Lemma inputs_show s : inputs (show s) = inputs s.
Proof. unfold inputs. unfold_methods. case_ref s; reflexivity. Qed.

Lemma inputs_hide s : inputs (hide s) = inputs s.
Proof. unfold inputs. unfold_methods. case_ref s; reflexivity. Qed.

Lemma inputs_handler n s : inputs (handler n s) = inputs s.
Proof. destruct n; cbv [handler]; [done|apply inputs_show|apply inputs_hide]. Qed.

Lemma inputs_ngOnDestroy s : inputs (ngOnDestroy s) = inputs s.
Proof. unfold inputs. unfold_methods. case_ref s; reflexivity. Qed.

Lemma inputs_step o s : is_input o = false → inputs (step o s) = inputs s.
Proof.
  destruct o; cbv [step]; try done; intros _.
  - apply inputs_ngOnDestroy.
  - apply inputs_show.
  - apply inputs_hide.
  - unfold toggle. destruct (shown s); [apply inputs_hide|apply inputs_show].
  - apply (next_preserves (λ x, inputs x = inputs s)); [|done..].
    intros x <-. apply inputs_handler.
Qed.

(** X4. No method, lifecycle hook or notification writes an input: content,
    position, adjustment, trigger, the context and the host are the same
    after any run that assigns none of them. *)
Theorem X4_inputs_only_change_by_assignment ops : ∀ s,
  List.filter is_input ops = [] →
  inputs (run ops s) = inputs s.
Proof.
  induction ops as [|o ops IH]; intros s Hops; simpl in *; [done|].
  destruct (is_input o) eqn:Ho; [done|].
  by rewrite (IH _ Hops), inputs_step.
Qed.

Lemma X4_inputs_only_change_by_assignment_witness :
  inputs (run [NgAfterViewInit; Show; Next (positionChange_next 1 NbPosition.LEFT);
               Toggle; Toggle; Hide; NgOnDestroy; Show]
            (set_icon "home" (new host0)))
  = inputs (set_icon "home" (new host0)).
Proof. by apply X4_inputs_only_change_by_assignment. Defined.

(** ** The context only gains keys *)

Lemma context_step_keeps o s k :
  is_Some (context s !! k) → is_Some (context (step o s) !! k).
Proof.
  intros Hk. destruct (is_input o) eqn:Ho.
  - destruct o; try done; cbv [step]; simpl;
      (destruct (decide (k = "icon")) as [->|];
         [by rewrite ?lookup_insert_eq, ?lookup_insert_ne|]);
      (destruct (decide (k = "status")) as [->|];
         [by rewrite ?lookup_insert_eq, ?lookup_insert_ne|]);
      by rewrite lookup_insert_ne.
  - assert (Hin := inputs_step o s Ho). unfold inputs in Hin.
    injection Hin as -> _ _ _ _ _. done.
Qed.

(** X5. A key of the content context is never removed: whatever the context
    holds stays in it over every run. Setting the icon (or the status) again
    replaces the value, the last assignment winning. *)
Theorem X5_context_keys_stay :
  (∀ ops s k, is_Some (context s !! k) → is_Some (context (run ops s) !! k)) ∧
  (∀ a b s, context (set_icon b (set_icon a s)) = context (set_icon b s)) ∧
  (∀ a b s, context (set_status b (set_status a s)) = context (set_status b s)).
Proof.
  split; [|split].
  - induction ops as [|o ops IH]; intros s k Hk; simpl; [done|].
    by apply IH, context_step_keeps.
  - intros a b s. apply insert_insert_eq.
  - intros a b s. apply insert_insert_eq.
Qed.

Lemma X5_context_keys_stay_witness :
  is_Some (context (run [SetStatus "danger"; NgAfterViewInit; Show; SetIcon "bell";
                         NgOnDestroy]
                      (set_icon "home" (new host0))) !! "icon").
Proof.
  destruct X5_context_keys_stay as (Hstay & _).
  apply Hstay. exists "home". by vm_compute.
Defined.

(** ** The cached content and the overlay agree *)

Lemma shown_ngOnDestroy s : shown (ngOnDestroy s) = false.
Proof. unfold shown. rewrite ngOnDestroy_ref. by destruct (ref s). Qed.

Lemma truthy_patch (c : Ref ComponentRef) p : truthy (patch c p) = truthy c.
Proof. by destruct c. Qed.

Lemma in_sync_show s : in_sync (show s).
Proof. unfold in_sync. by rewrite shown_show, show_container. Qed.

Lemma in_sync_hide s : in_sync (hide s).
Proof. unfold in_sync. by rewrite shown_hide. Qed.

Lemma in_sync_handler n s : in_sync s → in_sync (handler n s).
Proof.
  destruct n; cbv [handler];
    [|intros _; apply in_sync_show|intros _; apply in_sync_hide].
  unfold in_sync, shown. simpl. by rewrite truthy_patch.
Qed.

Lemma in_sync_step o s : in_sync s → in_sync (step o s).
Proof.
  destruct o; cbv [step]; try done.
  - intros _. unfold in_sync.
    by rewrite shown_ngOnDestroy, ngOnDestroy_container.
  - intros _. apply in_sync_show.
  - intros _. apply in_sync_hide.
  - intros _. unfold toggle.
    destruct (shown s); [apply in_sync_hide|apply in_sync_show].
  - apply next_preserves; [apply in_sync_handler|done].
Qed.

(** X6. Over every run from a new directive, whenever `this.container`
    holds a component the overlay handle exists and has content attached, so
    that `toggle` would hide: there is never cached content without a
    handle, nor cached content on a handle it was detached from. *)
Theorem X6_cached_content_is_attached host ops :
  truthy (container (run ops (new host))) = true →
  shown (run ops (new host)) = true ∧
  truthy (ref (run ops (new host))) = true.
Proof.
  assert (Hsync : in_sync (run ops (new host))).
  { generalize (new host), (eq_refl : in_sync (new host)).
    induction ops as [|o ops IH]; intros s Hs; simpl; [done|].
    apply IH, in_sync_step, Hs. }
  unfold in_sync in Hsync. intros Hc. rewrite Hc in Hsync.
  split; [exact Hsync|].
  unfold shown in Hsync. by destruct (ref (run ops (new host))).
Qed.

Lemma X6_cached_content_is_attached_witness :
  shown (run [NgAfterViewInit; Toggle; Next (positionChange_next 1 NbPosition.END)]
           (new host0)) = true ∧
  truthy (ref (run [NgAfterViewInit; Toggle; Next (positionChange_next 1 NbPosition.END)]
                 (new host0))) = true.
Proof.
  apply (X6_cached_content_is_attached host0
           [NgAfterViewInit; Toggle; Next (positionChange_next 1 NbPosition.END)]).
  by vm_compute.
Defined.

(** ** The overlay keeps the configuration of the first show *)

Lemma holds_configured_show id cfg s :
  holds_configured id cfg s → holds_configured id cfg (show s).
Proof. intros (ov & Href & Hid & Hcfg). eexists. by rewrite show_ref, Href. Qed.

Lemma holds_configured_hide id cfg s :
  holds_configured id cfg s → holds_configured id cfg (hide s).
Proof. intros (ov & Href & Hid & Hcfg). eexists. by rewrite hide_ref, Href. Qed.

Lemma holds_configured_handler id cfg n s :
  holds_configured id cfg s → holds_configured id cfg (handler n s).
Proof.
  destruct n; cbv [handler];
    auto using holds_configured_show, holds_configured_hide.
Qed.

Lemma holds_configured_step id cfg o s :
  holds_configured id cfg s → holds_configured id cfg (step o s).
Proof.
  destruct o; cbv [step]; try done;
    auto using holds_configured_show, holds_configured_hide.
  - intros (ov & Href & Hid & Hcfg). eexists. by rewrite ngOnDestroy_ref, Href.
  - unfold toggle. destruct (shown s);
      auto using holds_configured_show, holds_configured_hide.
  - apply next_preserves; auto using holds_configured_handler.
Qed.

Lemma holds_configured_run id cfg ops : ∀ s,
  holds_configured id cfg s → holds_configured id cfg (run ops s).
Proof.
  induction ops as [|o ops IH]; intros s Hs; simpl; [done|].
  apply IH, holds_configured_step, Hs.
Qed.

(** X7. The overlay is configured once, at the first `show()`, with the
    position strategy the directive holds at that moment, and keeps that
    configuration over everything that follows. A directive shown before
    `ngAfterViewInit` therefore has an overlay without position strategy,
    and a later initialisation does not give it one. *)
Theorem X7_overlay_configured_at_first_show :
  (∀ s ops, truthy (ref s) = false →
     ∃ ov, ref (run ops (show s)) = obj ov ∧
           ov_config ov = {| cfg_positionStrategy := positionStrategy s;
                             cfg_scrollStrategy := reposition |}) ∧
  (∀ host ops,
     ∃ ov, ref (run (Show :: ops) (new host)) = obj ov ∧
           cfg_positionStrategy (ov_config ov) = undefined).
Proof.
  assert (Hfirst : ∀ s ops, truthy (ref s) = false →
     ∃ ov, ref (run ops (show s)) = obj ov ∧
           ov_config ov = {| cfg_positionStrategy := positionStrategy s;
                             cfg_scrollStrategy := reposition |}).
  { intros s ops Href.
    destruct (holds_configured_run (next_id s)
                {| cfg_positionStrategy := positionStrategy s;
                   cfg_scrollStrategy := reposition |} ops (show s))
      as (ov & Hov & _ & Hcfg).
    - eexists. rewrite show_ref. by destruct (ref s).
    - by exists ov. }
  split; [exact Hfirst|].
  intros host ops.
  destruct (Hfirst (new host) ops eq_refl) as (ov & Hov & Hcfg).
  exists ov. split; [exact Hov|]. by rewrite Hcfg.
Qed.

Lemma X7_overlay_configured_at_first_show_witness :
  ∃ ov, ref (run [NgAfterViewInit; Hide; Show] (show (new host0))) = obj ov ∧
        ov_config ov = {| cfg_positionStrategy := undefined;
                          cfg_scrollStrategy := reposition |}.
Proof.
  destruct X7_overlay_configured_at_first_show as (Hfirst & _).
  apply (Hfirst (new host0) [NgAfterViewInit; Hide; Show]). by vm_compute.
Defined.

(** ** Strategies are built at initialisation only *)

(** `show`, `hide` and the callbacks build no strategy and store no other. *)
Lemma strategies_show s :
  List.filter is_strategy_build (log (show s)) = List.filter is_strategy_build (log s) ∧
  positionStrategy (show s) = positionStrategy s.
Proof.
  split.
  - rewrite show_log, List.filter_app. destruct (ref s); simpl; by rewrite app_nil_r.
  - unfold_methods. case_ref s; reflexivity.
Qed.

Lemma strategies_hide s :
  List.filter is_strategy_build (log (hide s)) = List.filter is_strategy_build (log s) ∧
  positionStrategy (hide s) = positionStrategy s.
Proof.
  split.
  - rewrite hide_log, List.filter_app. destruct (ref s); simpl; by rewrite app_nil_r.
  - unfold_methods. case_ref s; reflexivity.
Qed.

Lemma strategies_handler n s :
  List.filter is_strategy_build (log (handler n s)) = List.filter is_strategy_build (log s) ∧
  positionStrategy (handler n s) = positionStrategy s.
Proof.
  destruct n; cbv [handler]; [|apply strategies_show|apply strategies_hide].
  split; [|done]. unfold record. simpl.
  rewrite List.filter_app. simpl. by rewrite app_nil_r.
Qed.

Lemma strategies_step o s :
  is_init o = false →
  List.filter is_strategy_build (log (step o s)) = List.filter is_strategy_build (log s) ∧
  positionStrategy (step o s) = positionStrategy s.
Proof.
  destruct o; cbv [step]; try done; intros _.
  - split.
    + rewrite ngOnDestroy_log, List.filter_app.
      destruct (ref s); simpl; by rewrite app_nil_r.
    + unfold_methods. case_ref s; reflexivity.
  - apply strategies_show.
  - apply strategies_hide.
  - unfold toggle. destruct (shown s); [apply strategies_hide|apply strategies_show].
  - apply (next_preserves
             (λ x, List.filter is_strategy_build (log x)
                   = List.filter is_strategy_build (log s)
                   ∧ positionStrategy x = positionStrategy s)); [|done..].
    intros x [<- <-]. apply strategies_handler.
Qed.

(** X8. The trigger strategy and the position strategy are built in
    `ngAfterViewInit` and nowhere else, from the inputs as they are then.
    Assigning another placement afterwards builds nothing: the overlay
    created by the next `show()` is positioned by the placement of
    initialisation time, while the rendered content is given the new one. *)
Theorem X8_strategies_read_inputs_once :
  (∀ o s, is_init o = false →
     List.filter is_strategy_build (log (step o s))
       = List.filter is_strategy_build (log s) ∧
     positionStrategy (step o s) = positionStrategy s) ∧
  (∀ s p, truthy (ref s) = false →
     let s' := show (with_position p (ngAfterViewInit s)) in
     ∃ ov ps c,
       ref s' = obj ov ∧
       cfg_positionStrategy (ov_config ov) = obj ps ∧
       ps_position ps = position s ∧
       ps_adjustment ps = adjustment s ∧
       container s' = obj c ∧
       c_position c = p).
Proof.
  split; [apply strategies_step|].
  intros s p Href s'. subst s'.
  set (s1 := with_position p (ngAfterViewInit s)).
  assert (Href1 : truthy (ref s1) = false) by exact Href.
  eexists _, _, _. rewrite show_ref, show_container.
  destruct (ref s1) eqn:E1; [| |done]; (split; [reflexivity|]); simpl;
    repeat split; reflexivity.
Qed.

Lemma X8_strategies_read_inputs_once_witness :
  ∃ ov ps c,
    ref (show (with_position NbPosition.LEFT initialised)) = obj ov ∧
    cfg_positionStrategy (ov_config ov) = obj ps ∧
    ps_position ps = NbPosition.TOP ∧
    ps_adjustment ps = NbAdjustment.CLOCKWISE ∧
    container (show (with_position NbPosition.LEFT initialised)) = obj c ∧
    c_position c = NbPosition.LEFT.
Proof.
  destruct X8_strategies_read_inputs_once as (_ & Hsnap).
  apply (Hsnap (new host0) NbPosition.LEFT). by vm_compute.
Defined.

(** ** A position change patches the content, not the input *)






(** ** Every show renders *)

Lemma renders_show s : renders (show s) = S (renders s).
Proof.
  unfold renders. rewrite show_log, List.filter_app, length_app.
  destruct (ref s); simpl; lia.
Qed.

Lemma shows_show s : shows (show s) = S (shows s).
Proof.
  unfold shows. rewrite show_log, List.filter_app, length_app.
  destruct (ref s); simpl; lia.
Qed.

Lemma renders_hide s : renders (hide s) = renders s ∧ shows (hide s) = shows s.
Proof.
  unfold renders, shows. rewrite hide_log, !List.filter_app, !length_app.
  destruct (ref s); simpl; lia.
Qed.

Lemma renders_handler n s :
  renders s = shows s → renders (handler n s) = shows (handler n s).
Proof.
  intros Heq. destruct n; cbv [handler].
  - unfold renders, shows, record in *. simpl.
    rewrite !List.filter_app, !length_app. simpl. lia.
  - by rewrite renders_show, shows_show, Heq.
  - destruct (renders_hide s) as [-> ->]. exact Heq.
Qed.

Lemma renders_step o s :
  renders s = shows s → renders (step o s) = shows (step o s).
Proof.
  intros Heq. destruct o; cbv [step]; try done.
  - unfold renders, shows in *.
    rewrite ngAfterViewInit_log, !List.filter_app, !length_app. simpl. lia.
  - unfold renders, shows in *.
    rewrite ngOnDestroy_log, !List.filter_app, !length_app.
    destruct (ref s); simpl; lia.
  - by rewrite renders_show, shows_show, Heq.
  - destruct (renders_hide s) as [-> ->]. exact Heq.
  - unfold toggle. destruct (shown s).
    + destruct (renders_hide s) as [-> ->]. exact Heq.
    + by rewrite renders_show, shows_show, Heq.
  - apply (next_preserves (λ x, renders x = shows x));
      [apply renders_handler|done|exact Heq].
Qed.

(** X10. `show()` calls the renderer exactly once on every entry, with or
    without a handle beforehand, and nothing but `show()` calls it: over any
    run from a new directive there are as many `createContainer` calls as
    entries into `show()`. *)
Theorem X10_every_show_renders_once :
  (∀ s, renders (show s) = S (renders s)) ∧
  (∀ host ops, renders (run ops (new host)) = shows (run ops (new host))).
Proof.
  split; [apply renders_show|].
  intros host ops.
  generalize (new host), (eq_refl : renders (new host) = shows (new host)).
  induction ops as [|o ops IH]; intros s Hs; simpl; [done|].
  apply IH, renders_step, Hs.
Qed.
